(** * Magnum::Math::MathTypeTraits

    A shallow embedding of [src/Math/MathTypeTraits.h]: the per-type
    traits record (floating-point counterpart, [epsilon()], [equals()])
    and the three policy templates behind it.

    Integers are modelled as [Z] together with the range of their type;
    floating-point values as IEEE 754 values ([spec_float]) operated on
    in the format of their type, rounding to nearest, ties to even.
    Every operation is evaluated in the format of its operand type
    (no excess precision). *)

From Stdlib Require Import ZArith Bool Lia QArith Qabs Qpower.
From Stdlib Require Import Floats.SpecFloat.

Local Open Scope Z_scope.

Module Math.

(** ** Scalar types *)

(** [std::uint8_t] .. [std::int64_t]: the eight types specialised under
    "Integral scalar types". *)
Inductive IntegralType :=
  | UInt8 | Int8 | UInt16 | Int16 | UInt32 | Int32 | UInt64 | Int64.

(** [float], [double], [long double]: the three types specialised under
    "Floating-point scalar types". *)
Inductive FloatingType := Float | Double | LongDouble.

(** Scalar types for which the header has no specialisation.  [bool] and
    plain [char] are distinct from every [std::(u)intN_t] on every
    platform, and both have a built-in [operator==]. *)
Inductive UnregisteredType := CxxBool | CxxChar.

Inductive ScalarType :=
  | Integral (I : IntegralType)
  | Floating (F : FloatingType)
  | Unregistered (U : UnregisteredType).

Coercion Integral : IntegralType >-> ScalarType.
Coercion Floating : FloatingType >-> ScalarType.
Coercion Unregistered : UnregisteredType >-> ScalarType.

Definition is_integral (T : ScalarType) : bool :=
  match T with Integral _ => true | _ => false end.

Definition is_floating (T : ScalarType) : bool :=
  match T with Floating _ => true | _ => false end.

(** A type is registered when the header specialises [MathTypeTraits]
    for it. *)
Definition registered (T : ScalarType) : bool :=
  is_integral T || is_floating T.

(** *** Integers *)

Definition is_signed (I : IntegralType) : bool :=
  match I with
  | Int8 | Int16 | Int32 | Int64 => true
  | UInt8 | UInt16 | UInt32 | UInt64 => false
  end.

Definition bits (I : IntegralType) : Z :=
  match I with
  | UInt8 | Int8 => 8
  | UInt16 | Int16 => 16
  | UInt32 | Int32 => 32
  | UInt64 | Int64 => 64
  end.

Definition int_min (I : IntegralType) : Z :=
  if is_signed I then - 2 ^ (bits I - 1) else 0.

Definition int_max (I : IntegralType) : Z :=
  if is_signed I then 2 ^ (bits I - 1) - 1 else 2 ^ bits I - 1.

Definition representable (I : IntegralType) (z : Z) : Prop :=
  int_min I <= z <= int_max I.

(** The conversion [T(z)] of an integer to the integral type [T]:
    reduction modulo [2^bits], read back in two's complement for the
    signed types. *)
Definition int_cast (I : IntegralType) (z : Z) : Z :=
  let r := z mod 2 ^ bits I in
  if is_signed I && (2 ^ (bits I - 1) <=? r) then r - 2 ^ bits I else r.

(** *** Floating-point formats *)

Record format := { prec : Z; emax : Z }.

Definition binary32 : format := {| prec := 24; emax := 128 |}.
Definition binary64 : format := {| prec := 53; emax := 1024 |}.
(** [long double] as on x86 (System V ABI): the 80-bit extended format,
    64 bits of significand. *)
Definition x87_extended : format := {| prec := 64; emax := 16384 |}.

Definition format_of (F : FloatingType) : format :=
  match F with
  | Float => binary32
  | Double => binary64
  | LongDouble => x87_extended
  end.

Definition fsub (F : FloatingType) : spec_float -> spec_float -> spec_float :=
  SFsub (prec (format_of F)) (emax (format_of F)).

Definition fadd (F : FloatingType) : spec_float -> spec_float -> spec_float :=
  SFadd (prec (format_of F)) (emax (format_of F)).

(** [std::abs] on a floating-point argument. *)
Definition fabs (x : spec_float) : spec_float := SFabs x.

(** The built-in [<] on floating-point operands: false when either
    operand is NaN. *)
Definition flt (x y : spec_float) : bool := SFltb x y.

Definition fvalid (F : FloatingType) (x : spec_float) : bool :=
  valid_binary (prec (format_of F)) (emax (format_of F)) x.

(** Conversion of a floating-point value to the type [F], as done
    implicitly by [return] and by the usual arithmetic conversions. *)
Definition fconvert (F : FloatingType) (x : spec_float) : spec_float :=
  match x with
  | S754_finite s m e =>
      binary_normalize (prec (format_of F)) (emax (format_of F))
        (cond_Zopp s (Zpos m)) e s
  | _ => x
  end.

(** Neither an infinity nor NaN. *)
Definition is_finite (x : spec_float) : bool :=
  match x with
  | S754_zero _ | S754_finite _ _ _ => true
  | S754_infinity _ | S754_nan => false
  end.

(** The rational number denoted by a finite value (0 for the others). *)
Definition SF2Q (x : spec_float) : Q :=
  match x with
  | S754_finite s m e => (inject_Z (cond_Zopp s (Zpos m)) * Qpower 2 e)%Q
  | _ => 0%Q
  end.

(** A decimal floating literal [m e<e10>] of type [double]: the binary64
    value nearest to [m * 10^e10]. *)
Definition double_literal (m : positive) (e10 : Z) : spec_float :=
  match e10 with
  | Zneg k =>
      let '(q, e, l) :=
        SFdiv_core_binary 53 1024 (Zpos m) 0 (Zpos (10 ^ k)) 0 in
      binary_round_aux 53 1024 false q e l
  | _ => binary_normalize 53 1024 (Zpos m * 10 ^ e10) 0 false
  end.

(** *** Values *)

Definition value (T : ScalarType) : Type :=
  match T with
  | Integral _ => Z
  | Floating _ => spec_float
  | Unregistered CxxBool => bool
  | Unregistered CxxChar => Z
  end.

(** The built-in [operator==] of each value type. *)
Class EqualityComparable (V : Type) := op_eq : V -> V -> bool.

#[export] Instance Z_EqualityComparable : EqualityComparable Z := Z.eqb.
#[export] Instance bool_EqualityComparable : EqualityComparable bool := Bool.eqb.
#[export] Instance float_EqualityComparable : EqualityComparable spec_float := SFeqb.

#[export] Instance value_EqualityComparable (T : ScalarType) :
  EqualityComparable (value T) :=
  match T with
  | Integral _ => Z_EqualityComparable
  | Floating _ => float_EqualityComparable
  | Unregistered CxxBool => bool_EqualityComparable
  | Unregistered CxxChar => Z_EqualityComparable
  end.

(** ** Build configuration

    The three precision macros.  Each is a constant expression of type
    [double]; the header supplies a default when the macro is not
    defined by the build. *)
Record BuildConfig := {
  FLOAT_EQUALITY_PRECISION : spec_float;
  DOUBLE_EQUALITY_PRECISION : spec_float;
  LONG_DOUBLE_EQUALITY_PRECISION : spec_float
}.

Definition default_config : BuildConfig := {|
  FLOAT_EQUALITY_PRECISION := double_literal 1 (-6);
  DOUBLE_EQUALITY_PRECISION := double_literal 1 (-12);
  LONG_DOUBLE_EQUALITY_PRECISION := double_literal 1 (-18)
|}.

(** ** Policy templates and the traits table *)

(** What member lookup in [MathTypeTraits<T>] yields.  A member the
    instantiated class does not declare is [None]: naming it does not
    compile. *)
Record Traits (T : ScalarType) := {
  FloatingPointType : option ScalarType;
  epsilon : option (value T);
  equals : option (value T -> value T -> bool)
}.

Arguments FloatingPointType {T} _.
Arguments epsilon {T} _.
Arguments equals {T} _.

Inductive Member := member_FloatingPointType | member_epsilon | member_equals.

Definition declares {T : ScalarType} (tr : Traits T) (m : Member) : bool :=
  match m with
  | member_FloatingPointType =>
      match FloatingPointType tr with Some _ => true | None => false end
  | member_epsilon => match epsilon tr with Some _ => true | None => false end
  | member_equals => match equals tr with Some _ => true | None => false end
  end.

(** [Implementation::MathTypeTraitsDefault<T>::equals] *)
Definition MathTypeTraitsDefault_equals {V : Type} `{EqualityComparable V}
  (a b : V) : bool :=
  op_eq a b.

(** [Implementation::MathTypeTraitsIntegral<T>::epsilon] *)
Definition MathTypeTraitsIntegral_epsilon (I : IntegralType) : Z :=
  int_cast I 1.

Section Configured.

Variable cfg : BuildConfig.

(** [MathTypeTraits<float>::epsilon], [MathTypeTraits<double>::epsilon],
    [MathTypeTraits<long double>::epsilon]: the macro converted to the
    return type. *)
Definition floating_epsilon (F : FloatingType) : spec_float :=
  match F with
  | Float => fconvert Float (FLOAT_EQUALITY_PRECISION cfg)
  | Double => DOUBLE_EQUALITY_PRECISION cfg
  | LongDouble => fconvert LongDouble (LONG_DOUBLE_EQUALITY_PRECISION cfg)
  end.

(** [Implementation::MathTypeTraitsFloatingPoint<T>::equals] *)
Definition MathTypeTraitsFloatingPoint_equals (F : FloatingType)
  (a b : spec_float) : bool :=
  flt (fabs (fsub F a b)) (floating_epsilon F).

(** The typedef of each specialisation. *)
Definition floating_point_type (T : ScalarType) : option ScalarType :=
  match T with
  | Integral UInt8 => Some (Floating Float)
  | Integral Int8 => Some (Floating Float)
  | Integral UInt16 => Some (Floating Float)
  | Integral Int16 => Some (Floating Float)
  | Integral UInt32 => Some (Floating Double)
  | Integral Int32 => Some (Floating Double)
  | Integral UInt64 => Some (Floating LongDouble)
  | Integral Int64 => Some (Floating LongDouble)
  | Floating Float => Some (Floating Float)
  | Floating Double => Some (Floating Double)
  | Floating LongDouble => Some (Floating LongDouble)
  | Unregistered _ => None
  end.

(** [MathTypeTraits<T>]: the explicit specialisations, each deriving
    from its policy, and the primary template, which derives from
    [MathTypeTraitsDefault<T>] and declares nothing itself. *)
Definition MathTypeTraits (T : ScalarType) : Traits T :=
  match T return Traits T with
  | Integral Ti =>
      Build_Traits (Integral Ti)
        (floating_point_type (Integral Ti))
        (Some (MathTypeTraitsIntegral_epsilon Ti))
        (Some (MathTypeTraitsDefault_equals (V := value (Integral Ti))))
  | Floating Tf =>
      Build_Traits (Floating Tf)
        (floating_point_type (Floating Tf))
        (Some (floating_epsilon Tf))
        (Some (MathTypeTraitsFloatingPoint_equals Tf))
  | Unregistered Tu =>
      Build_Traits (Unregistered Tu)
        None
        None
        (Some (MathTypeTraitsDefault_equals (V := value (Unregistered Tu))))
  end.

End Configured.

(** The value of the expression [MathTypeTraits<T>::equals(a, b)];
    [None] when the expression does not compile. *)
Definition eval_equals (cfg : BuildConfig) (T : ScalarType)
  (a b : value T) : option bool :=
  match equals (MathTypeTraits cfg T) with
  | Some f => Some (f a b)
  | None => None
  end.

(** The value of the expression [MathTypeTraits<T>::epsilon()]. *)
Definition eval_epsilon (cfg : BuildConfig) (T : ScalarType) : option (value T) :=
  epsilon (MathTypeTraits cfg T).

(** Finite and not NaN; every integer is. *)
Definition finite_value (T : ScalarType) : value T -> bool :=
  match T return value T -> bool with
  | Floating _ => is_finite
  | _ => fun _ => true
  end.

(** [0 < epsilon()] in the floating type [F]. *)
Definition positive_epsilon (cfg : BuildConfig) (F : FloatingType) : Prop :=
  flt (S754_zero false) (floating_epsilon cfg F) = true.

(** ** Test values *)

(** [1.0] and [1.0 + 0.5e-12] in [double]. *)
Definition one : spec_float := double_literal 1 0.
Definition one_plus_half_eps : spec_float :=
  fadd Double one (double_literal 5 (-13)).

(** Twice the default [double] tolerance: its difference with the
    tolerance is exactly the tolerance. *)
Definition twice_eps : spec_float :=
  fadd Double (floating_epsilon default_config Double)
              (floating_epsilon default_config Double).

(** [2^-200] as a [double]. *)
Definition tiny : spec_float := S754_finite false (2 ^ 52) (-252).

(** The successor of [1] in each floating-point type. *)
Definition next_after_one (Tf : FloatingType) : spec_float :=
  SFsucc (prec (format_of Tf)) (emax (format_of Tf)) (fconvert Tf one).

(** [x] is a valid value of the type [F] within half a unit in the last
    place of the rational [q]. *)
Definition within_half_ulp (Tf : FloatingType) (x : spec_float) (q : Q) : Prop :=
  fvalid Tf x = true /\
  match x with
  | S754_finite _ _ e => (Qabs (SF2Q x - q) <= (1 # 2) * Qpower 2 e)%Q
  | _ => False
  end.

(** The reading under which no member of the traits class can be named
    for a type without a specialisation. *)
Definition unregistered_declares_nothing : Prop :=
  forall (cfg : BuildConfig) (T : ScalarType),
    registered T = false ->
    forall m : Member, declares (MathTypeTraits cfg T) m = false.

(** Unary minus on a floating-point value. *)
Definition fneg (x : spec_float) : spec_float := SFopp x.

(** The built-in [<=] on floating-point operands. *)
Definition fle (x y : spec_float) : bool := SFleb x y.

(** Three quarters of, and one and a half times, the default tolerance
    of the type [Tf]. *)
Definition three_quarters_eps (Tf : FloatingType) : spec_float :=
  let eps := floating_epsilon default_config Tf in
  SFldexp (prec (format_of Tf)) (emax (format_of Tf))
    (fadd Tf eps (fadd Tf eps eps)) (-2).

Definition three_halves_eps (Tf : FloatingType) : spec_float :=
  let eps := floating_epsilon default_config Tf in
  SFldexp (prec (format_of Tf)) (emax (format_of Tf))
    (fadd Tf eps (fadd Tf eps eps)) (-1).

(** A build that overrides the three macros with [1.0e-3]. *)
Definition loose_config : BuildConfig := {|
  FLOAT_EQUALITY_PRECISION := double_literal 1 (-3);
  DOUBLE_EQUALITY_PRECISION := double_literal 1 (-3);
  LONG_DOUBLE_EQUALITY_PRECISION := double_literal 1 (-3)
|}.

Ltac half_ulp :=
  split;
    [ vm_compute; reflexivity
    | apply Qle_bool_imp_le; vm_compute; reflexivity ].

(** Case analysis on every comparison in the goal. *)
Ltac order_cases :=
  repeat match goal with
  | |- context [Pos.compare_cont Eq ?a ?b] =>
      change (Pos.compare_cont Eq a b) with (Pos.compare a b)
  end;
  repeat match goal with
  | |- context [Z.compare ?a ?b] => destruct (Z.compare_spec a b)
  | |- context [Pos.compare ?a ?b] => destruct (Pos.compare_spec a b)
  end.

(** Arithmetic on the exponent range of a concrete format. *)
Ltac format_arith Tf :=
  unfold fexp, emin;
  destruct Tf; cbn [format_of prec emax binary32 binary64 x87_extended] in *;
  lia.

(** ** Properties of the floating-point operations *)

Section FloatFacts.

Variables p_ e_ : Z.

Lemma SFltb_irrefl (x : spec_float) : SFltb x x = false.
Proof.
  unfold SFltb.
  destruct x as [s | s | | s m e]; simpl; try reflexivity.
  - destruct s; reflexivity.
  - rewrite Z.compare_refl.
    change (Pos.compare_cont Eq m m) with (Pos.compare m m).
    rewrite Pos.compare_refl.
    destruct s; reflexivity.
Qed.

Lemma SFabs_binary_round_aux (s s' : bool) (m e : Z) (l : location) :
  SFabs (binary_round_aux p_ e_ s m e l) =
  SFabs (binary_round_aux p_ e_ s' m e l).
Proof.
  unfold binary_round_aux.
  destruct (shr_fexp p_ e_ m e l) as [mrs' e'].
  destruct (shr_fexp p_ e_ _ e' loc_Exact) as [mrs'' e''].
  destruct (shr_m mrs''); try reflexivity.
  destruct (e'' <=? e_ - p_); reflexivity.
Qed.

Lemma SFabs_binary_round (s s' : bool) (m : positive) (e : Z) :
  SFabs (binary_round p_ e_ s m e) = SFabs (binary_round p_ e_ s' m e).
Proof.
  unfold binary_round.
  destruct (shl_align m e _) as [mz ez].
  apply SFabs_binary_round_aux.
Qed.

Lemma SFabs_binary_normalize_opp (m e : Z) :
  SFabs (binary_normalize p_ e_ (- m) e false) =
  SFabs (binary_normalize p_ e_ m e false).
Proof.
  destruct m as [| m | m]; simpl; try reflexivity; apply SFabs_binary_round.
Qed.

(** [|a - b|] and [|b - a|] are the same value, whatever [a] and [b]. *)
Lemma SFabs_SFsub_comm (a b : spec_float) :
  SFabs (SFsub p_ e_ a b) = SFabs (SFsub p_ e_ b a).
Proof.
  destruct a as [sa | sa | | sa ma ea], b as [sb | sb | | sb mb eb];
    try reflexivity;
    try (destruct sa, sb; reflexivity).
  cbn [SFsub].
  rewrite (Z.min_comm eb ea).
  set (x := cond_Zopp sa _). set (y := cond_Zopp sb _).
  replace (y - x) with (- (x - y)) by ring.
  symmetry. apply SFabs_binary_normalize_opp.
Qed.

(** A finite value minus itself is [+0]. *)
Lemma SFsub_diag (a : spec_float) :
  is_finite a = true -> SFsub p_ e_ a a = S754_zero false.
Proof.
  destruct a as [s | s | | s m e]; simpl; try discriminate; intros _.
  - destruct s; reflexivity.
  - rewrite Z.sub_diag. reflexivity.
Qed.

Lemma SFsub_nan_l (b : spec_float) : SFsub p_ e_ S754_nan b = S754_nan.
Proof. reflexivity. Qed.

Lemma SFsub_nan_r (a : spec_float) : SFsub p_ e_ a S754_nan = S754_nan.
Proof. destruct a; reflexivity. Qed.

Lemma SFsub_infinity_diag (s : bool) :
  SFsub p_ e_ (S754_infinity s) (S754_infinity s) = S754_nan.
Proof. destruct s; reflexivity. Qed.

Lemma SFltb_nan_l (y : spec_float) : SFltb S754_nan y = false.
Proof. reflexivity. Qed.

End FloatFacts.

(** ** Integral types *)

Lemma int_cast_1 (Ti : IntegralType) : int_cast Ti 1 = 1.
Proof. destruct Ti; reflexivity. Qed.

Lemma representable_1 (Ti : IntegralType) : representable Ti 1.
Proof. destruct Ti; unfold representable; cbn; lia. Qed.

Lemma eval_equals_integral (cfg : BuildConfig) (Ti : IntegralType) (a b : Z) :
  eval_equals cfg Ti a b = Some (a =? b).
Proof. reflexivity. Qed.

Lemma eval_equals_floating (cfg : BuildConfig) (Tf : FloatingType)
  (a b : spec_float) :
  eval_equals cfg Tf a b =
  Some (flt (fabs (fsub Tf a b)) (floating_epsilon cfg Tf)).
Proof. reflexivity. Qed.

(** C2. On every integral type, [equals(a, b)] is [a == b] exactly: it
    is true if and only if the two integers are the same, and two
    integers whose distance is [epsilon()] (or any other non-zero
    distance) compare unequal. *)
Theorem equals_integral_exact (cfg : BuildConfig) (Ti : IntegralType) (a b : Z) :
  representable Ti a -> representable Ti b ->
  exists r eps,
    eval_equals cfg Ti a b = Some r /\
    eval_epsilon cfg Ti = Some eps /\
    (r = true <-> a = b) /\
    (Z.abs (a - b) = eps -> r = false).
Proof.
  intros _ _. exists (a =? b), 1.
  split; [reflexivity |].
  split; [cbn; f_equal; apply int_cast_1 |].
  split; [apply Z.eqb_eq |].
  intros H. apply Z.eqb_neq. lia.
Qed.

Lemma equals_integral_exact_witness :
  exists r eps,
    eval_equals default_config Int32 5 6 = Some r /\
    eval_epsilon default_config Int32 = Some eps /\
    (r = true <-> 5 = 6) /\
    (Z.abs (5 - 6) = eps -> r = false).
Proof.
  apply (equals_integral_exact default_config Int32 5 6);
    unfold representable; cbn; lia.
Defined.

Example equals_int32_5_5 (cfg : BuildConfig) :
  eval_equals cfg Int32 5 5 = Some true.
Proof. reflexivity. Qed.

Example equals_int32_5_6 (cfg : BuildConfig) :
  eval_equals cfg Int32 5 6 = Some false.
Proof. reflexivity. Qed.

(** C4. On every integral type [epsilon()] is the value 1 of that type,
    whatever the build configuration. *)
Theorem epsilon_integral_one (cfg : BuildConfig) (Ti : IntegralType) :
  eval_epsilon cfg Ti = Some 1 /\
  representable Ti 1 /\
  eval_epsilon cfg Ti = eval_epsilon default_config Ti.
Proof.
  split; [cbn; f_equal; apply int_cast_1 |].
  split; [apply representable_1 | reflexivity].
Qed.

(** ** Floating-point types *)

(** C1. On [float], [double] and [long double], [equals(a, b)] is true
    if and only if [abs(a - b) < epsilon()], with the difference, the
    absolute value and the comparison taken in the type itself.  The
    comparison is strict: when [abs(a - b)] is exactly [epsilon()] the
    two values compare unequal.  This holds for all values, the finite
    ones in particular. *)
Theorem equals_floating_strict (cfg : BuildConfig) (Tf : FloatingType)
  (a b : spec_float) :
  is_finite a = true -> is_finite b = true ->
  exists r eps,
    eval_equals cfg Tf a b = Some r /\
    eval_epsilon cfg Tf = Some eps /\
    (r = true <-> flt (fabs (fsub Tf a b)) eps = true) /\
    (fabs (fsub Tf a b) = eps -> r = false).
Proof.
  intros _ _.
  exists (flt (fabs (fsub Tf a b)) (floating_epsilon cfg Tf)),
         (floating_epsilon cfg Tf).
  split; [apply eval_equals_floating |].
  split; [reflexivity |].
  split; [tauto |].
  intros ->. apply SFltb_irrefl.
Qed.

Lemma equals_floating_strict_witness :
  exists r eps,
    eval_equals default_config Double twice_eps
      (floating_epsilon default_config Double) = Some r /\
    eval_epsilon default_config Double = Some eps /\
    (r = true <->
     flt (fabs (fsub Double twice_eps (floating_epsilon default_config Double)))
       eps = true) /\
    (fabs (fsub Double twice_eps (floating_epsilon default_config Double)) = eps ->
     r = false).
Proof.
  apply (equals_floating_strict default_config Double twice_eps
           (floating_epsilon default_config Double));
    vm_compute; reflexivity.
Defined.

(** Strictly inside the tolerance. *)
Example equals_double_inside :
  eval_equals default_config Double one one_plus_half_eps = Some true.
Proof. vm_compute. reflexivity. Qed.

(** Exactly on the boundary. *)
Example equals_double_boundary :
  fabs (fsub Double twice_eps (floating_epsilon default_config Double)) =
    floating_epsilon default_config Double /\
  eval_equals default_config Double twice_eps
    (floating_epsilon default_config Double) = Some false.
Proof. split; vm_compute; reflexivity. Qed.

(** Strictly outside: [1.0] against [1.0 + 1.5e-12]. *)
Example equals_double_outside :
  eval_equals default_config Double one
    (fadd Double one (double_literal 15 (-13))) = Some false.
Proof. vm_compute. reflexivity. Qed.

(** [1.0f] against [1.0f + 1e-3f]. *)
Example equals_float_outside :
  eval_equals default_config Float (fconvert Float one)
    (fadd Float (fconvert Float one) (fconvert Float (double_literal 1 (-3))))
  = Some false.
Proof. vm_compute. reflexivity. Qed.

(** ** The default tolerances, evaluated *)

Lemma default_float_epsilon :
  floating_epsilon default_config Float = S754_finite false 8796093 (-43).
Proof. vm_compute. reflexivity. Qed.

Lemma default_double_epsilon :
  floating_epsilon default_config Double =
  S754_finite false 4951760157141521 (-92).
Proof. vm_compute. reflexivity. Qed.

Lemma default_long_double_epsilon :
  floating_epsilon default_config LongDouble =
  S754_finite false 10633823966279327744 (-123).
Proof. vm_compute. reflexivity. Qed.

Lemma double_literal_1em18 :
  double_literal 1 (-18) = S754_finite false 5192296858534828 (-112).
Proof. vm_compute. reflexivity. Qed.

(** ** The comparison against the rational order *)

Section Order.
Variables p_ e_ : Z.

Lemma digits2_pos_bounds (m : positive) :
  2 ^ (Zpos (digits2_pos m) - 1) <= Zpos m < 2 ^ Zpos (digits2_pos m).
Proof.
  induction m as [m IH | m IH |]; cbn [digits2_pos].
  - rewrite Pos2Z.inj_succ.
    replace (Z.succ (Zpos (digits2_pos m)) - 1) with (Z.succ (Zpos (digits2_pos m) - 1)) by lia.
    rewrite !Z.pow_succ_r by lia. lia.
  - rewrite Pos2Z.inj_succ.
    replace (Z.succ (Zpos (digits2_pos m)) - 1) with (Z.succ (Zpos (digits2_pos m) - 1)) by lia.
    rewrite !Z.pow_succ_r by lia. lia.
  - cbn. lia.
Qed.

Lemma canonical_exponent_lt (m1 m2 : positive) (e1 e2 : Z) :
  canonical_mantissa p_ e_ m1 e1 = true ->
  canonical_mantissa p_ e_ m2 e2 = true ->
  e1 < e2 ->
  Zpos m1 < Zpos m2 * 2 ^ (e2 - e1).
Proof.
  unfold canonical_mantissa, fexp. intros H1 H2 Hlt.
  apply Z.eqb_eq in H1, H2.
  pose proof (digits2_pos_bounds m1) as [_ B1].
  pose proof (digits2_pos_bounds m2) as [B2 _].
  set (d1 := Zpos (digits2_pos m1)) in *.
  set (d2 := Zpos (digits2_pos m2)) in *.
  assert (Hd : d1 <= (d2 - 1) + (e2 - e1)) by lia.
  assert (Hp : 2 ^ d1 <= 2 ^ ((d2 - 1) + (e2 - e1)))
    by (apply Z.pow_le_mono_r; lia).
  rewrite Z.pow_add_r in Hp by (unfold d2; lia).
  assert (0 < 2 ^ (e2 - e1)) by (apply Z.pow_pos_nonneg; lia).
  nia.
Qed.

Lemma Qpower2_pos (e : Z) : (0 < Qpower 2 e)%Q.
Proof. apply Qpower_0_lt. reflexivity. Qed.

Lemma scale_to (M e e0 : Z) :
  e0 <= e ->
  (inject_Z M * Qpower 2 e == inject_Z (M * 2 ^ (e - e0)) * Qpower 2 e0)%Q.
Proof.
  intros H.
  replace e with ((e - e0) + e0) at 1 by ring.
  rewrite Qpower_plus by discriminate.
  rewrite inject_Z_mult, Zpower_Qpower by lia.
  change (inject_Z 2) with 2%Q.
  apply Qmult_assoc.
Qed.

Lemma Qlt_scaled (M1 e1 M2 e2 : Z) :
  (inject_Z M1 * Qpower 2 e1 < inject_Z M2 * Qpower 2 e2)%Q <->
  M1 * 2 ^ (e1 - Z.min e1 e2) < M2 * 2 ^ (e2 - Z.min e1 e2).
Proof.
  rewrite (scale_to M1 e1 (Z.min e1 e2)) by lia.
  rewrite (scale_to M2 e2 (Z.min e1 e2)) by lia.
  rewrite Qmult_lt_r by apply Qpower2_pos.
  rewrite <- Zlt_Qlt. tauto.
Qed.

Lemma SFltb_Qlt (x y : spec_float) :
  valid_binary p_ e_ x = true -> valid_binary p_ e_ y = true ->
  is_finite x = true -> is_finite y = true ->
  (SFltb x y = true <-> (SF2Q x < SF2Q y)%Q).
Proof.
  destruct x as [sx | sx | | sx mx ex], y as [sy | sy | | sy my ey];
    try discriminate; intros Vx Vy _ _; unfold SFltb; cbn [SFcompare SF2Q].
  - split; [discriminate | intros H; now apply Qlt_irrefl in H].
  - setoid_replace 0%Q with (inject_Z 0 * Qpower 2 ey)%Q
      by (symmetry; apply Qmult_0_l).
    rewrite Qlt_scaled, Z.min_id, Z.sub_diag.
    destruct sy; cbn; split; try discriminate; try lia; reflexivity.
  - setoid_replace 0%Q with (inject_Z 0 * Qpower 2 ex)%Q
      by (symmetry; apply Qmult_0_l).
    rewrite Qlt_scaled, Z.min_id, Z.sub_diag.
    destruct sx; cbn; split; try discriminate; try lia; reflexivity.
  - cbn in Vx, Vy. unfold bounded in Vx, Vy.
    apply andb_true_iff in Vx, Vy. destruct Vx as [Cx _], Vy as [Cy _].
    rewrite Qlt_scaled.
    assert (Px : 0 < 2 ^ (ex - Z.min ex ey)) by (apply Z.pow_pos_nonneg; lia).
    assert (Py : 0 < 2 ^ (ey - Z.min ex ey)) by (apply Z.pow_pos_nonneg; lia).
    change (Pos.compare_cont Eq mx my) with (Pos.compare mx my).
    destruct (Z.compare_spec ex ey) as [He | He | He].
    + subst ey. rewrite Z.min_id, Z.sub_diag, Z.pow_0_r in *.
      destruct (Pos.compare_spec mx my) as [Hm | Hm | Hm];
        destruct sx, sy; cbn [cond_Zopp CompOpp]; split; try discriminate;
        try reflexivity; lia.
    + pose proof (canonical_exponent_lt mx my ex ey Cx Cy He) as Hlt.
      rewrite Z.min_l in * by lia. rewrite Z.sub_diag, Z.pow_0_r in *.
      destruct sx, sy; cbn [cond_Zopp]; split; try discriminate;
        try reflexivity; nia.
    + pose proof (canonical_exponent_lt my mx ey ex Cy Cx He) as Hlt.
      rewrite Z.min_r in * by lia. rewrite Z.sub_diag, Z.pow_0_r in *.
      destruct sx, sy; cbn [cond_Zopp]; split; try discriminate;
        try reflexivity; nia.
Qed.
End Order.

Lemma SF2Q_SFabs (x : spec_float) : (SF2Q (SFabs x) == Qabs (SF2Q x))%Q.
Proof.
  destruct x as [s | s | | s m e]; cbn [SFabs SF2Q]; try reflexivity.
  rewrite Qabs_Qmult.
  rewrite (Qabs_pos (Qpower 2 e)) by (apply Qlt_le_weak, Qpower2_pos).
  destruct s; reflexivity.
Qed.

(** X12. On values that are valid in their type, [equals] compares the
    magnitude of the computed difference with [epsilon()] as rational
    numbers. *)
Lemma equals_floating_rational (cfg : BuildConfig) (Tf : FloatingType)
  (a b : spec_float) :
  is_finite (fsub Tf a b) = true -> fvalid Tf (fsub Tf a b) = true ->
  is_finite (floating_epsilon cfg Tf) = true ->
  fvalid Tf (floating_epsilon cfg Tf) = true ->
  (eval_equals cfg Tf a b = Some true <->
   (Qabs (SF2Q (fsub Tf a b)) < SF2Q (floating_epsilon cfg Tf))%Q).
Proof.
  intros Fd Vd Fe Ve.
  rewrite eval_equals_floating.
  rewrite <- SF2Q_SFabs.
  unfold flt, fabs.
  rewrite <- (SFltb_Qlt (prec (format_of Tf)) (emax (format_of Tf))).
  - split; [now intros [= ->] | now intros ->].
  - destruct (fsub Tf a b); try discriminate; exact Vd.
  - exact Ve.
  - destruct (fsub Tf a b); try discriminate; reflexivity.
  - exact Fe.
Qed.

(** The difference compared is the rounded one: the default [double]
    tolerance and [2^-200] differ, as rational numbers, by less than
    the tolerance, but their computed difference is the tolerance
    itself, and they compare unequal. *)
Remark equals_double_rounded_difference :
  fvalid Double tiny = true /\
  (Qabs (SF2Q (floating_epsilon default_config Double) - SF2Q tiny) <
   SF2Q (floating_epsilon default_config Double))%Q /\
  fsub Double (floating_epsilon default_config Double) tiny =
    floating_epsilon default_config Double /\
  eval_equals default_config Double (floating_epsilon default_config Double) tiny
    = Some false.
Proof.
  split; [vm_compute; reflexivity |].
  split; [| split; vm_compute; reflexivity].
  rewrite default_double_epsilon.
  apply Qlt_alt. vm_compute. reflexivity.
Qed.

(** C9. On every floating-point type a comparison with NaN on either
    side is false, NaN against NaN included: the difference is NaN, and
    [NaN < epsilon()] is false. *)
Theorem equals_nan_false (cfg : BuildConfig) (Tf : FloatingType)
  (b : spec_float) :
  eval_equals cfg Tf S754_nan b = Some false /\
  eval_equals cfg Tf b S754_nan = Some false /\
  eval_equals cfg Tf S754_nan S754_nan = Some false /\
  fabs (fsub Tf S754_nan b) = S754_nan /\
  fabs (fsub Tf b S754_nan) = S754_nan.
Proof.
  rewrite !eval_equals_floating. unfold fsub.
  rewrite SFsub_nan_l, SFsub_nan_r.
  repeat split; reflexivity.
Qed.

(** C10. On every floating-point type two infinities of the same sign
    compare unequal: their difference is NaN, and [NaN < epsilon()] is
    false. *)
Theorem equals_same_infinity_false (cfg : BuildConfig) (Tf : FloatingType)
  (s : bool) :
  fsub Tf (S754_infinity s) (S754_infinity s) = S754_nan /\
  eval_equals cfg Tf (S754_infinity s) (S754_infinity s) = Some false.
Proof.
  rewrite eval_equals_floating. unfold fsub.
  rewrite SFsub_infinity_diag. split; reflexivity.
Qed.

(** ** All registered types *)

(** C8. [equals] is symmetric on every type, for all values: integers,
    finite floating-point values, infinities and NaN. *)
Theorem equals_symmetric (cfg : BuildConfig) (T : ScalarType) (a b : value T) :
  eval_equals cfg T a b = eval_equals cfg T b a.
Proof.
  destruct T as [Ti | Tf | Tu].
  - rewrite !eval_equals_integral. f_equal. apply Z.eqb_sym.
  - rewrite !eval_equals_floating. unfold fabs, fsub.
    now rewrite SFabs_SFsub_comm.
  - destruct Tu; cbn in *.
    + f_equal. destruct a, b; reflexivity.
    + f_equal. apply Z.eqb_sym.
Qed.

(** C7. [equals] is reflexive on every registered type at every finite,
    non-NaN value, provided that on the floating-point types
    [epsilon()] is positive. *)
Theorem equals_reflexive (cfg : BuildConfig) (T : ScalarType) (a : value T) :
  registered T = true ->
  finite_value T a = true ->
  (forall Tf, T = Floating Tf -> positive_epsilon cfg Tf) ->
  eval_equals cfg T a a = Some true.
Proof.
  intros _ Hfin Hpos.
  destruct T as [Ti | Tf | Tu].
  - rewrite eval_equals_integral. f_equal. apply Z.eqb_refl.
  - rewrite eval_equals_floating. unfold fsub.
    rewrite (SFsub_diag _ _ a Hfin).
    f_equal. apply (Hpos Tf eq_refl).
  - destruct Tu; cbn in *; f_equal.
    + destruct a; reflexivity.
    + apply Z.eqb_refl.
Qed.

Lemma default_epsilon_positive (Tf : FloatingType) :
  positive_epsilon default_config Tf.
Proof. destruct Tf; vm_compute; reflexivity. Qed.

Lemma equals_reflexive_witness :
  eval_equals default_config Double one one = Some true.
Proof.
  apply (equals_reflexive default_config Double one).
  - reflexivity.
  - vm_compute. reflexivity.
  - intros Tf _. destruct Tf; vm_compute; reflexivity.
Defined.

(** Positivity of [epsilon()] is exactly what reflexivity needs on the
    floating-point types. *)
Lemma equals_reflexive_floating_iff (cfg : BuildConfig) (Tf : FloatingType)
  (a : spec_float) :
  is_finite a = true ->
  (eval_equals cfg Tf a a = Some true <-> positive_epsilon cfg Tf).
Proof.
  intros Hfin. rewrite eval_equals_floating. unfold fsub.
  rewrite (SFsub_diag _ _ a Hfin). unfold positive_epsilon. cbn [fabs SFabs].
  split; [now intros [= ->] | now intros ->].
Qed.

(** ** The floating-point counterpart *)

(** C3. The 8- and 16-bit integers map to [float], the 32-bit ones to
    [double], the 64-bit ones to [long double], and each floating-point
    type to itself.  The counterpart of an integral type is a type whose
    [equals] is the tolerance rule of the floating-point policy; under
    the default configuration that rule accepts two values that [==]
    tells apart. *)
Theorem floating_point_counterpart (cfg : BuildConfig) :
  (forall Ti, bits Ti = 8 \/ bits Ti = 16 ->
     FloatingPointType (MathTypeTraits cfg Ti) = Some (Floating Float)) /\
  (forall Ti, bits Ti = 32 ->
     FloatingPointType (MathTypeTraits cfg Ti) = Some (Floating Double)) /\
  (forall Ti, bits Ti = 64 ->
     FloatingPointType (MathTypeTraits cfg Ti) = Some (Floating LongDouble)) /\
  (forall Tf : FloatingType,
     FloatingPointType (MathTypeTraits cfg Tf) = Some (Floating Tf)) /\
  (forall Ti : IntegralType, exists Tf : FloatingType,
     FloatingPointType (MathTypeTraits cfg Ti) = Some (Floating Tf) /\
     equals (MathTypeTraits cfg Tf) =
       Some (MathTypeTraitsFloatingPoint_equals cfg Tf) /\
     (forall a b,
        eval_equals cfg Tf a b =
        Some (flt (fabs (fsub Tf a b)) (floating_epsilon cfg Tf))) /\
     op_eq (fconvert Tf one) (next_after_one Tf) = false /\
     eval_equals default_config Tf (fconvert Tf one) (next_after_one Tf) =
       Some true).
Proof.
  split; [| split; [| split; [| split]]].
  - intros Ti [H | H]; destruct Ti; try discriminate H; reflexivity.
  - intros Ti H; destruct Ti; try discriminate H; reflexivity.
  - intros Ti H; destruct Ti; try discriminate H; reflexivity.
  - intros Tf; destruct Tf; reflexivity.
  - intros Ti.
    destruct Ti;
      [ exists Float | exists Float | exists Float | exists Float
      | exists Double | exists Double
      | exists LongDouble | exists LongDouble ];
      (split; [reflexivity |]);
      (split; [reflexivity |]);
      (split; [intros a b; reflexivity |]);
      split; vm_compute; reflexivity.
Qed.

Lemma floating_point_counterpart_witness :
  FloatingPointType (MathTypeTraits default_config UInt8) = Some (Floating Float) /\
  FloatingPointType (MathTypeTraits default_config Int32) = Some (Floating Double) /\
  FloatingPointType (MathTypeTraits default_config Int64) = Some (Floating LongDouble).
Proof.
  pose proof (floating_point_counterpart default_config) as (H16 & H32 & H64 & _).
  split; [apply H16; left; reflexivity |].
  split; [apply H32; reflexivity | apply H64; reflexivity].
Defined.

(** ** Default tolerances *)

(** C5. With none of the three macros overridden, [epsilon()] is the
    literal [1.0e-6] converted to [float], the literal [1.0e-12] as a
    [double], and the literal [1.0e-18] converted to [long double]:
    three fixed values, the first two within half a unit in the last
    place of [10^-6] and [10^-12] in their type, the third the same
    number as the [double] nearest to [10^-18]. *)
Theorem default_epsilon_values :
  eval_epsilon default_config Float = Some (fconvert Float (double_literal 1 (-6))) /\
  eval_epsilon default_config Double = Some (double_literal 1 (-12)) /\
  eval_epsilon default_config LongDouble =
    Some (fconvert LongDouble (double_literal 1 (-18))) /\
  floating_epsilon default_config Float = S754_finite false 8796093 (-43) /\
  floating_epsilon default_config Double = S754_finite false 4951760157141521 (-92) /\
  floating_epsilon default_config LongDouble =
    S754_finite false 10633823966279327744 (-123) /\
  within_half_ulp Float (floating_epsilon default_config Float) (1 # 10 ^ 6) /\
  within_half_ulp Double (floating_epsilon default_config Double) (1 # 10 ^ 12) /\
  within_half_ulp Double (double_literal 1 (-18)) (1 # 10 ^ 18) /\
  fvalid LongDouble (floating_epsilon default_config LongDouble) = true /\
  (SF2Q (floating_epsilon default_config LongDouble) ==
   SF2Q (double_literal 1 (-18)))%Q.
Proof.
  do 3 (split; [vm_compute; reflexivity |]).
  split; [apply default_float_epsilon |].
  split; [apply default_double_epsilon |].
  split; [apply default_long_double_epsilon |].
  rewrite default_float_epsilon, default_double_epsilon,
    default_long_double_epsilon, double_literal_1em18.
  do 3 (split; [half_ulp |]).
  split; [vm_compute; reflexivity |].
  apply Qeq_bool_eq. vm_compute. reflexivity.
Qed.

(** The [float] tolerance, promoted back to [double], is not the
    [double] literal it was converted from; the [long double] tolerance
    is. *)
Remark default_float_epsilon_rounded :
  op_eq (fconvert Double (floating_epsilon default_config Float))
        (double_literal 1 (-6)) = false /\
  op_eq (floating_epsilon default_config LongDouble)
        (fconvert LongDouble (double_literal 1 (-18))) = true.
Proof. split; vm_compute; reflexivity. Qed.

(** ** Types without a specialisation *)

(** [MathTypeTraits<bool>::equals] is declared, through the primary
    template's base class, and is plain [==]: the expression compiles
    and runs. *)
Lemma unregistered_equals_declared :
  registered (Unregistered CxxBool) = false /\
  declares (MathTypeTraits default_config (Unregistered CxxBool)) member_equals
    = true /\
  eval_equals default_config (Unregistered CxxBool) true true = Some true /\
  ~ unregistered_declares_nothing.
Proof.
  do 3 (split; [reflexivity |]).
  intros H.
  specialize (H default_config (Unregistered CxxBool) eq_refl member_equals).
  discriminate H.
Qed.

Example equals_bool_runs :
  eval_equals default_config (Unregistered CxxBool) true true = Some true /\
  eval_equals default_config (Unregistered CxxBool) true false = Some false.
Proof. split; reflexivity. Qed.

(** C6 (as amended). For a type without a specialisation, [epsilon] and
    [FloatingPointType] are not declared, so naming them does not
    compile; [equals] is declared by the primary template's base class
    and is exact equality, [a == b]. *)
Theorem unregistered_members (cfg : BuildConfig) (T : ScalarType) :
  registered T = false ->
  declares (MathTypeTraits cfg T) member_epsilon = false /\
  declares (MathTypeTraits cfg T) member_FloatingPointType = false /\
  eval_epsilon cfg T = None /\
  FloatingPointType (MathTypeTraits cfg T) = None /\
  declares (MathTypeTraits cfg T) member_equals = true /\
  forall a b : value T, eval_equals cfg T a b = Some (op_eq a b).
Proof.
  destruct T as [Ti | Tf | Tu]; try discriminate; intros _.
  repeat split.
Qed.

Lemma unregistered_members_witness :
  declares (MathTypeTraits default_config (Unregistered CxxChar)) member_epsilon
    = false /\
  declares (MathTypeTraits default_config (Unregistered CxxChar))
    member_FloatingPointType = false /\
  eval_epsilon default_config (Unregistered CxxChar) = None /\
  FloatingPointType (MathTypeTraits default_config (Unregistered CxxChar)) = None /\
  declares (MathTypeTraits default_config (Unregistered CxxChar)) member_equals
    = true /\
  forall a b : value (Unregistered CxxChar),
    eval_equals default_config (Unregistered CxxChar) a b = Some (op_eq a b).
Proof.
  apply (unregistered_members default_config (Unregistered CxxChar)).
  reflexivity.
Defined.

(** X13. Every registered type declares all three members, under every
    build configuration. *)
Lemma registered_members (cfg : BuildConfig) (T : ScalarType) (m : Member) :
  registered T = true -> declares (MathTypeTraits cfg T) m = true.
Proof.
  destruct T as [Ti | Tf | Tu]; try discriminate; intros _;
    destruct m; try reflexivity.
  - destruct Ti; reflexivity.
  - destruct Tf; reflexivity.
Qed.

(** ** Further properties of the floating-point comparison *)

Section MoreFloatFacts.

Variables p_ e_ : Z.

Lemma SFltb_pos_infinity_l (y : spec_float) :
  SFltb (S754_infinity false) y = false.
Proof. destruct y as [s | s | | s m e]; try destruct s; reflexivity. Qed.

Lemma SFabs_SFsub_infinity_l (s : bool) (b : spec_float) :
  SFabs (SFsub p_ e_ (S754_infinity s) b) = S754_infinity false \/
  SFabs (SFsub p_ e_ (S754_infinity s) b) = S754_nan.
Proof.
  destruct b as [sb | sb | | sb mb eb]; try destruct s; try destruct sb;
    cbn; auto.
Qed.

Lemma SFabs_SFsub_zero_r (a : spec_float) (s : bool) :
  SFabs (SFsub p_ e_ a (S754_zero s)) = SFabs a.
Proof. destruct a as [sa | sa | | sa ma ea]; try destruct sa; destruct s; reflexivity. Qed.

Lemma cond_Zopp_negb (s : bool) (z : Z) : cond_Zopp (negb s) z = - cond_Zopp s z.
Proof. destruct s; cbn; lia. Qed.

Lemma SFabs_SFsub_opp (a b : spec_float) :
  SFabs (SFsub p_ e_ (SFopp a) (SFopp b)) = SFabs (SFsub p_ e_ a b).
Proof.
  destruct a as [sa | sa | | sa ma ea], b as [sb | sb | | sb mb eb];
    try reflexivity;
    try (destruct sa, sb; reflexivity).
  cbn [SFopp SFsub].
  rewrite !cond_Zopp_negb.
  set (x := cond_Zopp sa _). set (y := cond_Zopp sb _).
  replace (- x - - y) with (- (x - y)) by ring.
  apply SFabs_binary_normalize_opp.
Qed.

(** A magnitude below [y] makes [y] positive. *)
Lemma SFltb_SFabs_positive (d y : spec_float) :
  SFltb (SFabs d) y = true -> SFltb (S754_zero false) y = true.
Proof.
  destruct d as [sd | sd | | sd md ed], y as [sy | sy | | sy my ey];
    try destruct sy; cbn; try discriminate; reflexivity.
Qed.

Lemma SFeqb_finite_SFsub (a b : spec_float) :
  is_finite a = true -> is_finite b = true -> SFeqb a b = true ->
  SFabs (SFsub p_ e_ a b) = S754_zero false.
Proof.
  destruct a as [sa | sa | | sa ma ea], b as [sb | sb | | sb mb eb];
    try discriminate; intros _ _; unfold SFeqb; cbn [SFcompare].
  - intros _. destruct sa, sb; reflexivity.
  - destruct sb; discriminate.
  - destruct sa; discriminate.
  - change (Pos.compare_cont Eq ma mb) with (Pos.compare ma mb).
    destruct sa, sb; try discriminate;
      destruct (Z.compare_spec ea eb) as [He | He | He]; try discriminate;
      destruct (Pos.compare_spec ma mb) as [Hm | Hm | Hm]; try discriminate;
      intros _; subst; cbn [SFsub]; rewrite Z.sub_diag; reflexivity.
Qed.

Lemma SFltb_SFleb_trans (x y z : spec_float) :
  SFltb x y = true -> SFleb y z = true -> SFltb x z = true.
Proof.
  unfold SFltb, SFleb.
  destruct x as [sx | sx | | sx mx ex], y as [sy | sy | | sy my ey],
    z as [sz | sz | | sz mz ez]; cbn [SFcompare];
    try discriminate; try reflexivity;
    try destruct sx; try destruct sy; try destruct sz;
    try discriminate; try reflexivity;
    order_cases; cbn [CompOpp]; try discriminate; try reflexivity;
    intros _ _; subst; exfalso; lia.
Qed.

End MoreFloatFacts.

(** ** Conversions that do not round *)

Section Exact.

Variables p_ e_ : Z.

Lemma digits2_pos_unique (m : positive) (n : Z) :
  2 ^ (n - 1) <= Zpos m < 2 ^ n -> Zpos (digits2_pos m) = n.
Proof.
  intros [Hl Hu].
  pose proof (digits2_pos_bounds m) as [Bl Bu].
  set (d := Zpos (digits2_pos m)) in *.
  assert (0 < d) by (unfold d; lia).
  destruct (Z.lt_trichotomy d n) as [Hlt | [Heq | Hgt]]; [exfalso | exact Heq | exfalso].
  - assert (2 ^ d <= 2 ^ (n - 1)) by (apply Z.pow_le_mono_r; lia). lia.
  - assert (n < 0 \/ 0 <= n) as [Hn | Hn] by lia.
    + rewrite (Z.pow_neg_r 2 n) in Hu by lia. lia.
    + assert (2 ^ n <= 2 ^ (d - 1)) by (apply Z.pow_le_mono_r; lia). lia.
Qed.

Lemma iter_xO_value (m d : positive) :
  Zpos (Pos.iter xO m d) = Zpos m * 2 ^ Zpos d.
Proof.
  induction d as [| d IH] using Pos.peano_ind.
  - cbn. lia.
  - rewrite Pos.iter_succ, Pos2Z.inj_succ, Z.pow_succ_r by lia.
    rewrite Pos2Z.inj_xO, IH. ring.
Qed.

Lemma iter_xO_digits (m d : positive) :
  Zpos (digits2_pos (Pos.iter xO m d)) = Zpos (digits2_pos m) + Zpos d.
Proof.
  induction d as [| d IH] using Pos.peano_ind.
  - cbn [Pos.iter digits2_pos]. lia.
  - rewrite Pos.iter_succ. cbn [digits2_pos].
    rewrite !Pos2Z.inj_succ, IH. lia.
Qed.

(** Rounding a canonical mantissa leaves it alone. *)
Lemma binary_round_aux_canonical (s : bool) (m : positive) (e : Z) :
  canonical_mantissa p_ e_ m e = true ->
  binary_round_aux p_ e_ s (Zpos m) e loc_Exact =
  if e <=? e_ - p_ then S754_finite s m e else S754_infinity s.
Proof.
  unfold canonical_mantissa. intros H. apply Z.eqb_eq in H.
  unfold binary_round_aux, shr_fexp. cbn [Zdigits2 shr_record_of_loc].
  rewrite H, Z.sub_diag. cbn [shr shr_m loc_of_shr_record round_nearest_even].
  cbn [Zdigits2 shr_record_of_loc].
  rewrite H, Z.sub_diag. reflexivity.
Qed.

(** A mantissa that needs no right shift is rounded exactly: it is
    shifted left to its canonical exponent. *)
Lemma binary_round_exact (s : bool) (m : positive) (e : Z) :
  let e' := fexp p_ e_ (Zpos (digits2_pos m) + e) in
  e' <= e -> e' <= e_ - p_ ->
  exists m',
    binary_round p_ e_ s m e = S754_finite s m' e' /\
    Zpos m' = Zpos m * 2 ^ (e - e') /\
    canonical_mantissa p_ e_ m' e' = true.
Proof.
  intros e' Hle Hmax.
  assert (He' : fexp p_ e_ (Zpos (digits2_pos m) + e) = e') by reflexivity.
  clearbody e'.
  unfold binary_round, shl_align. rewrite He'.
  assert (Hb : (e' <=? e_ - p_) = true) by (apply Z.leb_le; exact Hmax).
  destruct (e' - e) as [| d | d] eqn:Hd; try lia.
  - assert (Hee : e' = e) by lia. rewrite Hee in *. clear Hee.
    assert (Hc : canonical_mantissa p_ e_ m e = true)
      by (unfold canonical_mantissa; apply Z.eqb_eq; exact He').
    exists m. rewrite binary_round_aux_canonical, Hb by exact Hc.
    rewrite Z.sub_diag. repeat split; [lia | exact Hc].
  - assert (Hc : canonical_mantissa p_ e_ (Pos.iter xO m d) e' = true).
    { unfold canonical_mantissa. apply Z.eqb_eq.
      rewrite iter_xO_digits.
      replace (Zpos (digits2_pos m) + Zpos d + e')
        with (Zpos (digits2_pos m) + e) by lia.
      exact He'. }
    exists (Pos.iter xO m d).
    rewrite binary_round_aux_canonical, Hb by exact Hc.
    split; [reflexivity |]. split; [| exact Hc].
    rewrite iter_xO_value. f_equal. f_equal. lia.
Qed.

Lemma SF2Q_scaled (s : bool) (m m' : positive) (e e' : Z) :
  e' <= e -> Zpos m' = Zpos m * 2 ^ (e - e') ->
  (SF2Q (S754_finite s m' e') == SF2Q (S754_finite s m e))%Q.
Proof.
  intros Hle Hm. cbn [SF2Q].
  rewrite (scale_to (cond_Zopp s (Zpos m)) e e') by exact Hle.
  replace (cond_Zopp s (Zpos m) * 2 ^ (e - e')) with (cond_Zopp s (Zpos m'))
    by (destruct s; cbn [cond_Zopp]; lia).
  reflexivity.
Qed.

End Exact.

(** ** What the tolerance rule accepts *)

(** X1. Whatever [==] accepts on finite values the tolerance rule
    accepts too, once [epsilon()] is positive; the two zeros are equal
    under both. *)
Theorem equals_extends_exact (cfg : BuildConfig) (Tf : FloatingType)
  (a b : spec_float) :
  is_finite a = true -> is_finite b = true ->
  MathTypeTraitsDefault_equals (V := value Tf) a b = true ->
  positive_epsilon cfg Tf ->
  eval_equals cfg Tf a b = Some true.
Proof.
  intros Fa Fb Heq Hpos.
  rewrite eval_equals_floating. unfold fabs, fsub.
  rewrite (SFeqb_finite_SFsub _ _ a b Fa Fb Heq).
  f_equal. exact Hpos.
Qed.

Lemma equals_extends_exact_witness :
  eval_equals default_config Float (S754_zero false) (S754_zero true) = Some true.
Proof.
  apply (equals_extends_exact default_config Float
           (S754_zero false) (S754_zero true));
    vm_compute; reflexivity.
Defined.

(** X2. Only finite values can compare equal: when [equals(a, b)] is
    true neither operand is an infinity or NaN, whatever the
    tolerance. *)
Theorem equals_true_finite (cfg : BuildConfig) (Tf : FloatingType)
  (a b : spec_float) :
  eval_equals cfg Tf a b = Some true ->
  is_finite a = true /\ is_finite b = true.
Proof.
  rewrite eval_equals_floating. unfold flt, fabs, fsub. intros [= H].
  split.
  - destruct a as [sa | sa | | sa ma ea]; try reflexivity; exfalso.
    + destruct (SFabs_SFsub_infinity_l (prec (format_of Tf))
                  (emax (format_of Tf)) sa b) as [E | E];
        rewrite E in H; [rewrite SFltb_pos_infinity_l in H |];
        discriminate H.
    + rewrite SFsub_nan_l in H. discriminate H.
  - rewrite SFabs_SFsub_comm in H.
    destruct b as [sb | sb | | sb mb eb]; try reflexivity; exfalso.
    + destruct (SFabs_SFsub_infinity_l (prec (format_of Tf))
                  (emax (format_of Tf)) sb a) as [E | E];
        rewrite E in H; [rewrite SFltb_pos_infinity_l in H |];
        discriminate H.
    + rewrite SFsub_nan_l in H. discriminate H.
Qed.

Lemma equals_true_finite_witness :
  is_finite one = true /\ is_finite one_plus_half_eps = true.
Proof.
  apply (equals_true_finite default_config Double one one_plus_half_eps).
  vm_compute. reflexivity.
Defined.

(** X3. If any two values compare equal, [epsilon()] is positive: with
    a tolerance that is zero, negative or NaN, [equals] is false for
    every pair. *)
Theorem equals_true_positive_epsilon (cfg : BuildConfig) (Tf : FloatingType)
  (a b : spec_float) :
  eval_equals cfg Tf a b = Some true -> positive_epsilon cfg Tf.
Proof.
  rewrite eval_equals_floating. unfold flt, fabs. intros [= H].
  unfold positive_epsilon, flt.
  exact (SFltb_SFabs_positive _ _ H).
Qed.

Lemma equals_true_positive_epsilon_witness :
  positive_epsilon default_config Double.
Proof.
  apply (equals_true_positive_epsilon default_config Double one one_plus_half_eps).
  vm_compute. reflexivity.
Defined.

(** X4. Enlarging the tolerance only adds equal pairs: every pair that
    compares equal under one setting of the macros compares equal under
    any setting whose [epsilon()] is at least as large. *)
Theorem equals_monotone_epsilon (cfg1 cfg2 : BuildConfig) (Tf : FloatingType)
  (a b : spec_float) :
  fle (floating_epsilon cfg1 Tf) (floating_epsilon cfg2 Tf) = true ->
  eval_equals cfg1 Tf a b = Some true ->
  eval_equals cfg2 Tf a b = Some true.
Proof.
  rewrite !eval_equals_floating. unfold fle, flt. intros Hle [= H].
  f_equal. exact (SFltb_SFleb_trans _ _ _ H Hle).
Qed.

(** X5. Negating both operands does not change the result. *)
Theorem equals_negation (cfg : BuildConfig) (Tf : FloatingType)
  (a b : spec_float) :
  eval_equals cfg Tf (fneg a) (fneg b) = eval_equals cfg Tf a b.
Proof.
  rewrite !eval_equals_floating. unfold fabs, fsub, fneg.
  now rewrite SFabs_SFsub_opp.
Qed.

(** X15. Comparing against a zero of either sign is a test of the
    magnitude: [equals(a, 0)] and [equals(0, a)] are [abs(a) < epsilon()],
    with no rounding involved. *)
Theorem equals_zero_magnitude (cfg : BuildConfig) (Tf : FloatingType)
  (a : spec_float) (s : bool) :
  eval_equals cfg Tf a (S754_zero s) =
    Some (flt (fabs a) (floating_epsilon cfg Tf)) /\
  eval_equals cfg Tf (S754_zero s) a =
    Some (flt (fabs a) (floating_epsilon cfg Tf)).
Proof.
  rewrite !eval_equals_floating. unfold fabs, fsub.
  rewrite (SFabs_SFsub_comm _ _ (S754_zero s) a), SFabs_SFsub_zero_r.
  split; reflexivity.
Qed.

Lemma equals_monotone_epsilon_witness :
  eval_equals loose_config Double one one_plus_half_eps = Some true.
Proof.
  apply (equals_monotone_epsilon default_config loose_config Double
           one one_plus_half_eps);
    vm_compute; reflexivity.
Defined.

(** X8. The tolerance rule is not transitive: under the default
    configuration each floating-point type has valid finite values
    [a], [b], [c] with [equals(a, b)] and [equals(b, c)] true and
    [equals(a, c)] false. *)
Theorem equals_floating_not_transitive (Tf : FloatingType) :
  exists a b c : spec_float,
    fvalid Tf a = true /\ fvalid Tf b = true /\ fvalid Tf c = true /\
    is_finite a = true /\ is_finite b = true /\ is_finite c = true /\
    eval_equals default_config Tf a b = Some true /\
    eval_equals default_config Tf b c = Some true /\
    eval_equals default_config Tf a c = Some false.
Proof.
  exists (S754_zero false), (three_quarters_eps Tf), (three_halves_eps Tf).
  destruct Tf;
    (do 8 (split; [vm_compute; reflexivity |])); vm_compute; reflexivity.
Qed.

(** ** The exact policy *)

(** X6. On the integral types the exact comparison is the tolerance
    rule read with [epsilon() = 1]: [equals(a, b)] is true exactly when
    [|a - b| < epsilon()], and false exactly when the distance reaches
    [epsilon()], the minimal difference between unequal values. *)
Theorem equals_integral_tolerance (cfg : BuildConfig) (Ti : IntegralType)
  (a b : Z) :
  exists eps,
    eval_epsilon cfg Ti = Some eps /\
    (eval_equals cfg Ti a b = Some true <-> Z.abs (a - b) < eps) /\
    (eval_equals cfg Ti a b = Some false <-> eps <= Z.abs (a - b)).
Proof.
  exists 1. split; [cbn; f_equal; apply int_cast_1 |].
  rewrite eval_equals_integral.
  destruct (Z.eqb_spec a b) as [E | N]; split; split;
    try discriminate; try reflexivity; intros; try lia.
Qed.

(** X7. Under the exact policy (integral types and types without a
    specialisation) [equals] is transitive. *)
Theorem equals_exact_transitive (cfg : BuildConfig) (T : ScalarType)
  (a b c : value T) :
  is_floating T = false ->
  eval_equals cfg T a b = Some true ->
  eval_equals cfg T b c = Some true ->
  eval_equals cfg T a c = Some true.
Proof.
  destruct T as [Ti | Tf | Tu]; try discriminate; intros _.
  - rewrite !eval_equals_integral. intros [= H1] [= H2]. f_equal.
    apply Z.eqb_eq in H1, H2. apply Z.eqb_eq. congruence.
  - destruct Tu; cbn in *; intros [= H1] [= H2]; f_equal.
    + apply Bool.eqb_prop in H1, H2. subst. apply Bool.eqb_reflx.
    + apply Z.eqb_eq in H1, H2. apply Z.eqb_eq. congruence.
Qed.

Lemma equals_exact_transitive_witness :
  eval_equals default_config Int16 7 7 = Some true.
Proof.
  apply (equals_exact_transitive default_config Int16 7 7 7); reflexivity.
Defined.

(** ** The counterpart table *)

(** X14. The counterpart of a counterpart is itself: following
    [FloatingPointType] once from any registered type reaches a
    floating-point type that is its own counterpart. *)
Theorem counterpart_idempotent (cfg : BuildConfig) (T F : ScalarType) :
  FloatingPointType (MathTypeTraits cfg T) = Some F ->
  is_floating F = true /\
  FloatingPointType (MathTypeTraits cfg F) = Some F.
Proof.
  destruct T as [Ti | Tf | Tu]; cbn.
  - destruct Ti; intros [= <-]; split; reflexivity.
  - destruct Tf; intros [= <-]; split; reflexivity.
  - discriminate.
Qed.

Lemma counterpart_idempotent_witness :
  is_floating Double = true /\
  FloatingPointType (MathTypeTraits default_config Double) = Some (Floating Double).
Proof.
  apply (counterpart_idempotent default_config Int32 Double). reflexivity.
Defined.

(** X9. The counterpart of an integral type is the smallest
    floating-point type whose significand has at least as many bits as
    the integer: it is wide enough, and no narrower floating-point type
    is. *)
Theorem counterpart_smallest_larger (cfg : BuildConfig) (Ti : IntegralType)
  (Tf : FloatingType) :
  FloatingPointType (MathTypeTraits cfg Ti) = Some (Floating Tf) ->
  bits Ti <= prec (format_of Tf) /\
  forall Tf' : FloatingType,
    bits Ti <= prec (format_of Tf') ->
    prec (format_of Tf) <= prec (format_of Tf').
Proof.
  destruct Ti; intros [= <-]; (split; [cbn; lia |]);
    intros Tf'; destruct Tf'; cbn; lia.
Qed.

Lemma counterpart_smallest_larger_witness :
  bits Int32 <= prec (format_of Double) /\
  forall Tf' : FloatingType,
    bits Int32 <= prec (format_of Tf') ->
    prec (format_of Double) <= prec (format_of Tf').
Proof.
  apply (counterpart_smallest_larger default_config Int32 Double). reflexivity.
Defined.

(** An integer of at most [n] bits, [n] within the significand of
    [Tf], is the value of a valid finite [Tf]. *)
Lemma integer_exactly_representable (Tf : FloatingType) (n z : Z) :
  Z.abs z < 2 ^ n -> n <= prec (format_of Tf) ->
  exists x : spec_float,
    fvalid Tf x = true /\ is_finite x = true /\ (SF2Q x == inject_Z z)%Q.
Proof.
  intros Hz Hn.
  destruct z as [| m | m].
  - exists (S754_zero false). repeat split; reflexivity.
  - pose proof (digits2_pos_bounds m) as [Bl _].
    assert (Hd : Zpos (digits2_pos m) <= n).
    { destruct (Z.le_gt_cases (Zpos (digits2_pos m)) n) as [H | H]; [exact H |].
      assert (2 ^ n <= 2 ^ (Zpos (digits2_pos m) - 1))
        by (apply Z.pow_le_mono_r; lia).
      cbn [Z.abs] in Hz. lia. }
    destruct (binary_round_exact (prec (format_of Tf)) (emax (format_of Tf))
                false m 0) as (m' & Hr & Hm & Hc).
    + format_arith Tf.
    + format_arith Tf.
    + exists (S754_finite false m'
                (fexp (prec (format_of Tf)) (emax (format_of Tf))
                   (Zpos (digits2_pos m) + 0))).
      split; [| split; [reflexivity |]].
      * unfold fvalid. cbn [valid_binary]. unfold bounded. rewrite Hc.
        apply Z.leb_le. format_arith Tf.
      * rewrite (SF2Q_scaled false m m' 0 _); [| | exact Hm].
        -- cbn [SF2Q cond_Zopp]. cbn [Qpower]. apply Qmult_1_r.
        -- format_arith Tf.
  - pose proof (digits2_pos_bounds m) as [Bl _].
    assert (Hd : Zpos (digits2_pos m) <= n).
    { destruct (Z.le_gt_cases (Zpos (digits2_pos m)) n) as [H | H]; [exact H |].
      assert (2 ^ n <= 2 ^ (Zpos (digits2_pos m) - 1))
        by (apply Z.pow_le_mono_r; lia).
      cbn [Z.abs] in Hz. lia. }
    destruct (binary_round_exact (prec (format_of Tf)) (emax (format_of Tf))
                true m 0) as (m' & Hr & Hm & Hc).
    + format_arith Tf.
    + format_arith Tf.
    + exists (S754_finite true m'
                (fexp (prec (format_of Tf)) (emax (format_of Tf))
                   (Zpos (digits2_pos m) + 0))).
      split; [| split; [reflexivity |]].
      * unfold fvalid. cbn [valid_binary]. unfold bounded. rewrite Hc.
        apply Z.leb_le. format_arith Tf.
      * rewrite (SF2Q_scaled true m m' 0 _); [| | exact Hm].
        -- cbn [SF2Q cond_Zopp]. cbn [Qpower]. apply Qmult_1_r.
        -- format_arith Tf.
Qed.

Lemma representable_abs (Ti : IntegralType) (z : Z) :
  representable Ti z -> Z.abs z < 2 ^ bits Ti.
Proof. unfold representable; destruct Ti; cbn; lia. Qed.

(** X10. Normalising to the counterpart loses nothing: every value of
    an integral type is exactly the value of a valid finite value of
    that type's [FloatingPointType]. *)
Theorem counterpart_holds_every_integer (cfg : BuildConfig) (Ti : IntegralType)
  (Tf : FloatingType) (z : Z) :
  FloatingPointType (MathTypeTraits cfg Ti) = Some (Floating Tf) ->
  representable Ti z ->
  exists x : spec_float,
    fvalid Tf x = true /\ is_finite x = true /\ (SF2Q x == inject_Z z)%Q.
Proof.
  intros HF Hz.
  apply (integer_exactly_representable Tf (bits Ti) z).
  - apply representable_abs. exact Hz.
  - destruct Ti; injection HF as <-; cbn; lia.
Qed.

Lemma counterpart_holds_every_integer_witness :
  exists x : spec_float,
    fvalid LongDouble x = true /\ is_finite x = true /\
    (SF2Q x == inject_Z (2 ^ 64 - 1))%Q.
Proof.
  apply (counterpart_holds_every_integer default_config UInt64 LongDouble
           (2 ^ 64 - 1)).
  - reflexivity.
  - unfold representable. cbn. lia.
Defined.

(** X11. [MathTypeTraits<long double>::epsilon()] has exactly the value
    of [LONG_DOUBLE_EQUALITY_PRECISION], however the macro is set: the
    conversion of a [double] to the return type never rounds. *)
Theorem long_double_epsilon_exact (cfg : BuildConfig) :
  fvalid Double (LONG_DOUBLE_EQUALITY_PRECISION cfg) = true ->
  fvalid LongDouble (floating_epsilon cfg LongDouble) = true /\
  is_finite (floating_epsilon cfg LongDouble) =
    is_finite (LONG_DOUBLE_EQUALITY_PRECISION cfg) /\
  (SF2Q (floating_epsilon cfg LongDouble) ==
   SF2Q (LONG_DOUBLE_EQUALITY_PRECISION cfg))%Q /\
  (is_finite (LONG_DOUBLE_EQUALITY_PRECISION cfg) = false ->
   floating_epsilon cfg LongDouble = LONG_DOUBLE_EQUALITY_PRECISION cfg).
Proof.
  cbn [floating_epsilon].
  destruct (LONG_DOUBLE_EQUALITY_PRECISION cfg) as [s | s | | s m e];
    intros V; try (repeat split; reflexivity).
  unfold fvalid in V. cbn in V. unfold bounded, canonical_mantissa in V.
  apply andb_true_iff in V. destruct V as [Vc Vb].
  apply Z.eqb_eq in Vc. apply Z.leb_le in Vb.
  unfold fexp, emin in Vc.
  unfold fconvert. cbn [format_of prec emax x87_extended].
  assert (Hn : binary_normalize 64 16384 (cond_Zopp s (Zpos m)) e s =
               binary_round 64 16384 s m e) by (destruct s; reflexivity).
  rewrite Hn.
  destruct (binary_round_exact 64 16384 s m e) as (m' & Hr & Hm & Hc).
  - unfold fexp, emin. lia.
  - unfold fexp, emin. lia.
  - rewrite Hr. split; [| split; [reflexivity | split]].
    + unfold fvalid.
      cbn [valid_binary format_of prec emax x87_extended].
      unfold bounded. rewrite Hc.
      apply Z.leb_le. unfold fexp, emin. lia.
    + apply (SF2Q_scaled s m m' e); [| exact Hm].
      unfold fexp, emin. lia.
    + discriminate.
Qed.

Lemma long_double_epsilon_exact_witness :
  fvalid LongDouble (floating_epsilon default_config LongDouble) = true /\
  is_finite (floating_epsilon default_config LongDouble) =
    is_finite (LONG_DOUBLE_EQUALITY_PRECISION default_config) /\
  (SF2Q (floating_epsilon default_config LongDouble) ==
   SF2Q (LONG_DOUBLE_EQUALITY_PRECISION default_config))%Q /\
  (is_finite (LONG_DOUBLE_EQUALITY_PRECISION default_config) = false ->
   floating_epsilon default_config LongDouble =
   LONG_DOUBLE_EQUALITY_PRECISION default_config).
Proof.
  apply (long_double_epsilon_exact default_config).
  vm_compute. reflexivity.
Defined.

Lemma equals_floating_rational_witness :
  eval_equals default_config Double one one_plus_half_eps = Some true <->
  (Qabs (SF2Q (fsub Double one one_plus_half_eps)) <
   SF2Q (floating_epsilon default_config Double))%Q.
Proof.
  apply (equals_floating_rational default_config Double one one_plus_half_eps);
    vm_compute; reflexivity.
Defined.

Lemma registered_members_witness :
  declares (MathTypeTraits default_config UInt16) member_epsilon = true.
Proof.
  apply (registered_members default_config UInt16 member_epsilon).
  reflexivity.
Defined.

End Math.
